(** * Bell schedule generator: a shallow embedding of [calendar_generator.py]

    The Python program turns one CSV row per school day into calendar
    events.  We embed the parts that decide the schedule: Python's list
    slicing, [list.insert] and indexing (with the exceptions they raise),
    the [BLOCKS] rotation of [RotationDay._get_block_rotation], the period
    assembly of [RotationDay.__init__], [create_blocks], and the row loop
    of [main].  Exceptions are modelled by a small error monad. *)

From Stdlib Require Import ZArith List String Ascii Bool Lia.
Import ListNotations.
Open Scope string_scope.
Open Scope list_scope.
Open Scope Z_scope.

(** ** Python exceptions and an error monad *)

Inductive exn : Type :=
| IndexError
| ValueError
| StopIteration.

Inductive result (A : Type) : Type :=
| Ok (a : A)
| Err (e : exn).
Arguments Ok {A} a.
Arguments Err {A} e.

Definition bind {A B} (r : result A) (k : A -> result B) : result B :=
  match r with
  | Ok a => k a
  | Err e => Err e
  end.

Notation "x <- c ;; k" := (bind c (fun x => k))
  (at level 61, c at next level, right associativity).

(** ** Python list primitives *)

Module Py.

(** [l[i]]: negative indices count from the end; out of range raises
    IndexError. *)
Definition index {A} (l : list A) (i : Z) : result A :=
  let n := Z.of_nat (List.length l) in
  let j := if i <? 0 then i + n else i in
  if (j <? 0) || (n <=? j) then Err IndexError
  else match nth_error l (Z.to_nat j) with
       | Some x => Ok x
       | None => Err IndexError
       end.

(** One bound of a slice, as [PySlice_AdjustIndices] clamps it. *)
Definition adjust_bound (n step : Z) (i : Z) : Z :=
  if i <? 0 then
    (if i + n <? 0 then (if step <? 0 then -1 else 0) else i + n)
  else if n <=? i then (if step <? 0 then n - 1 else n)
  else i.

(** Number of items a slice selects ([PySlice_AdjustIndices]'s result). *)
Definition slice_length (start stop step : Z) : Z :=
  if step <? 0 then
    (if stop <? start then (start - stop - 1) / (- step) + 1 else 0)
  else
    (if start <? stop then (stop - start - 1) / step + 1 else 0).

(** [l[start:stop:step]]; [None] is an omitted bound.  A zero step raises
    ValueError. *)
Definition slice {A} (l : list A) (start stop : option Z) (step : Z)
  : result (list A) :=
  if step =? 0 then Err ValueError else
  let n := Z.of_nat (List.length l) in
  let start' := match start with
                | None => if step <? 0 then n - 1 else 0
                | Some i => adjust_bound n step i
                end in
  let stop' := match stop with
               | None => if step <? 0 then -1 else n
               | Some i => adjust_bound n step i
               end in
  let cnt := slice_length start' stop' step in
  Ok (flat_map (fun k => match nth_error l (Z.to_nat (start' + Z.of_nat k * step)) with
                         | Some x => [x]
                         | None => []
                         end)
               (seq 0 (Z.to_nat cnt))).

(** [l.insert(i, x)]: the position is clamped into [0, len l]. *)
Definition insert {A} (l : list A) (i : Z) (x : A) : list A :=
  let n := Z.of_nat (List.length l) in
  let w := if i <? 0 then Z.max 0 (i + n) else Z.min i n in
  firstn (Z.to_nat w) l ++ x :: skipn (Z.to_nat w) l.

(** [l.append(x)] *)
Definition append {A} (l : list A) (x : A) : list A := l ++ [x].

End Py.

(** ** Configuration tables *)

(** academic blocks - please leave in this order *)
Definition BLOCKS : list string :=
  ["A Block"; "G Block"; "F Block"; "E Block"; "D Block"; "C Block"; "B Block"].

(** Weekly MS Common Time activities *)
Definition MS_ACTIVITIES : list string :=
  ["Advisory"; "Tutorial"; "MFW"; "Tutorial"; "Committees"].

(** weekly US Common Time activities *)
Definition US_ACTIVITIES : list string :=
  ["Advisory"; "MFW"; "Academic Help"; "Activity Period"; "MFW"].

(** ** The block rotation *)

(** [RotationDay._get_block_rotation]:
    [day = day_number - 1; BLOCKS[day::-1] + BLOCKS[-1:day + 1:-1]]. *)
Definition get_block_rotation (day_number : Z) : result (list string) :=
  let day := day_number - 1 in
  a <- Py.slice BLOCKS (Some day) None (-1) ;;
  b <- Py.slice BLOCKS (Some (-1)) (Some (day + 1)) (-1) ;;
  Ok (a ++ b).

(** The rotation of the earlier script [calendar.py] (lines 59-63), which
    cuts a seven-element result back to six. *)
Definition get_block_rotation_v1 (number : Z) : result (list string) :=
  let day := number - 1 in
  a <- Py.slice BLOCKS (Some day) None (-1) ;;
  b <- Py.slice BLOCKS (Some (-1)) (Some (day + 1)) (-1) ;;
  let blocks := a ++ b in
  if Nat.eqb (List.length blocks) 7 then Py.slice blocks None (Some (-1)) 1
  else Ok blocks.

(** ** Dates and times ([datetime.date], [datetime.time], [datetime.datetime]) *)

Record Date := mkDate { year : Z; month : Z; mday : Z }.
Record Time := mkTime { hour : Z; minute : Z; second : Z }.
Record DateTime := mkDateTime { dt_date : Date; dt_time : Time }.

Definition is_leap (y : Z) : bool :=
  (y mod 4 =? 0) && (negb (y mod 100 =? 0) || (y mod 400 =? 0)).

(** [_DAYS_IN_MONTH] and [_DAYS_BEFORE_MONTH] of CPython's [datetime.py]. *)
Definition DAYS_IN_MONTH : list Z :=
  [-1; 31; 28; 31; 30; 31; 30; 31; 31; 30; 31; 30; 31].
Definition DAYS_BEFORE_MONTH : list Z :=
  [-1; 0; 31; 59; 90; 120; 151; 181; 212; 243; 273; 304; 334].

Definition days_in_month (y m : Z) : Z :=
  if (m =? 2) && is_leap y then 29 else nth (Z.to_nat m) DAYS_IN_MONTH 0.

Definition days_before_year (y : Z) : Z :=
  let y1 := y - 1 in y1 * 365 + y1 / 4 - y1 / 100 + y1 / 400.

Definition days_before_month (y m : Z) : Z :=
  nth (Z.to_nat m) DAYS_BEFORE_MONTH 0 + (if (2 <? m) && is_leap y then 1 else 0).

(** [date.toordinal()] and [date.weekday()] (Monday is 0). *)
Definition toordinal (d : Date) : Z :=
  days_before_year (year d) + days_before_month (year d) (month d) + mday d.

Definition weekday (d : Date) : Z := (toordinal d + 6) mod 7.

(** [datetime.combine(d, t)]: the date part of [d] with the time [t]. *)
Definition combine (d : DateTime) (t : Time) : DateTime := mkDateTime (dt_date d) t.

Definition at_midnight (d : Date) : DateTime := mkDateTime d (mkTime 0 0 0).

(** block times (start, end) for Wednesday *)
Definition WED_TIMES : list (Time * Time) :=
  [ (mkTime 7 55 0, mkTime 8 10 0);    (* MS Advisory / US AM help *)
    (mkTime 8 10 0, mkTime 8 55 0);    (* 1st block *)
    (mkTime 9 0 0, mkTime 10 10 0);    (* 2nd block *)
    (mkTime 10 10 0, mkTime 10 25 0);  (* break *)
    (mkTime 10 25 0, mkTime 11 10 0);  (* 3rd block *)
    (mkTime 11 15 0, mkTime 11 55 0);  (* 4th block *)
    (mkTime 12 0 0, mkTime 12 30 0);   (* MS Lunch / US Acad help *)
    (mkTime 12 30 0, mkTime 13 0 0);   (* US Lunch / MS MFW *)
    (mkTime 13 5 0, mkTime 13 50 0);   (* 5th block *)
    (mkTime 13 55 0, mkTime 14 40 0) ]. (* 6th block *)

(** block times (start, end) for days that are not Wednesday *)
Definition REG_TIMES : list (Time * Time) :=
  [ (mkTime 7 55 0, mkTime 8 10 0);    (* MS Advisory / US AM help *)
    (mkTime 8 10 0, mkTime 9 0 0);     (* 1st block *)
    (mkTime 9 5 0, mkTime 10 15 0);    (* 2nd block *)
    (mkTime 10 15 0, mkTime 10 30 0);  (* break *)
    (mkTime 10 30 0, mkTime 11 20 0);  (* 3rd block *)
    (mkTime 11 25 0, mkTime 12 5 0);   (* 4th block *)
    (mkTime 12 10 0, mkTime 12 50 0);  (* MS Lunch *)
    (mkTime 12 50 0, mkTime 13 25 0);  (* US Lunch *)
    (mkTime 13 25 0, mkTime 14 15 0);  (* 5th block *)
    (mkTime 14 20 0, mkTime 15 10 0);  (* 6th block *)
    (mkTime 15 10 0, mkTime 15 40 0) ]. (* MS Sports / US Acad help *)

(** ** Rendering: [str(int)], [str(date)], [str(time)] *)

Fixpoint digits_fuel (fuel : nat) (n : Z) (acc : string) : string :=
  match fuel with
  | O => acc
  | S f =>
      let acc' := String (ascii_of_nat (48 + Z.to_nat (n mod 10))) acc in
      if n <? 10 then acc' else digits_fuel f (n / 10) acc'
  end.

(** Decimal digits of a non-negative integer. *)
Definition digits (n : Z) : string := digits_fuel (S (Z.to_nat (Z.log2 n))) n "".

(** [str(z)] for a Python int. *)
Definition str_int (z : Z) : string :=
  if z <? 0 then String.append "-" (digits (- z)) else digits z.

Fixpoint zeros (k : nat) : string :=
  match k with O => "" | S k' => String "0" (zeros k') end.

(** ["%0wd"] for a non-negative integer. *)
Definition pad (w : nat) (z : Z) : string :=
  let s := digits z in String.append (zeros (w - String.length s)) s.

(** [str(date)] is [isoformat()]: ["%04d-%02d-%02d"]. *)
Definition str_date (d : Date) : string :=
  String.append (pad 4 (year d))
    (String.append "-" (String.append (pad 2 (month d))
      (String.append "-" (pad 2 (mday d))))).

(** [str(time)] for a time with no microseconds, as every time this
    program builds: ["%02d:%02d:%02d"]. *)
Definition str_time (t : Time) : string :=
  String.append (pad 2 (hour t))
    (String.append ":" (String.append (pad 2 (minute t))
      (String.append ":" (pad 2 (second t))))).

(** ** Events *)

Record Event := mkEvent {
  name : string;
  start : DateTime;
  end_ : DateTime;
  all_day : bool }.

Definition field_names : list string :=
  ["Subject"; "Start Date"; "Start Time"; "End Date"; "End Time"; "All Day Event"].

(** [Event.to_csv], with the values in the order of [field_names], as
    [csv.DictWriter] writes them ([str(True)] is ["True"]). *)
Definition to_csv (e : Event) : list string :=
  [ name e;
    str_date (dt_date (start e)); str_time (dt_time (start e));
    str_date (dt_date (end_ e)); str_time (dt_time (end_ e));
    if all_day e then "True" else "False" ].

(** ** [RotationDay] *)

Record RotationDay := mkRotationDay {
  date : DateTime;
  day_number : Z;
  is_wednesday : bool;
  is_open : bool;
  all_day_events : list string;
  blocks : list string }.

Definition MORNING_HELP : string := "MS Advisory | US Morning Help".
Definition ELECTIVES : string := "MS Electives | US Academic Help".
Definition BREAK : string := "Break".

(** [RotationDay.__init__]; the statements in the source's order. *)
Definition RotationDay_init (date : DateTime) (day_number : Z) (is_open : bool)
    (all_day_events : list string) : result RotationDay :=
  let weekday := weekday (dt_date date) in
  let is_wednesday := weekday =? 2 in
  let all_day_events :=
    if is_open then Py.append all_day_events (String.append "Day " (str_int day_number))
    else all_day_events in
  rot <- get_block_rotation day_number ;;
  let b := Py.insert rot 0 MORNING_HELP in
  let b := if negb is_wednesday then Py.append b ELECTIVES else b in
  ms <- Py.index MS_ACTIVITIES weekday ;;
  let b := Py.insert b 5 (String.append "US Lunch | MS " ms) in
  us <- Py.index US_ACTIVITIES weekday ;;
  let b := Py.insert b 5 (String.append "MS Lunch | US " us) in
  let b := Py.insert b 3 BREAK in
  Ok (mkRotationDay date day_number is_wednesday is_open all_day_events b).

(** [RotationDay.get_event_times] *)
Definition get_event_times (self : RotationDay) (block_num : Z)
    : result (DateTime * DateTime) :=
  let times := if negb (is_wednesday self) then REG_TIMES else WED_TIMES in
  se <- Py.index times block_num ;;
  Ok (combine (date self) (fst se), combine (date self) (snd se)).

(** The second loop of [create_blocks], over [range(len(self.blocks))]. *)
Fixpoint timed_events (self : RotationDay) (nums : list nat) : result (list Event) :=
  match nums with
  | [] => Ok []
  | num :: rest =>
      if is_wednesday self && Nat.eqb num (List.length (blocks self)) then Ok []
      else
        nm <- Py.index (blocks self) (Z.of_nat num) ;;
        se <- get_event_times self (Z.of_nat num) ;;
        tl <- timed_events self rest ;;
        Ok (mkEvent nm (fst se) (snd se) false :: tl)
  end.

(** [if all_day_event:] -- a non-empty string. *)
Definition truthy (s : string) : bool := negb (String.eqb s "").

(** [RotationDay.create_blocks] *)
Definition create_blocks (self : RotationDay) : result (list Event) :=
  let alld := map (fun t => mkEvent t (date self) (date self) true)
                  (filter truthy (all_day_events self)) in
  if negb (is_open self) then Ok alld
  else
    tl <- timed_events self (seq 0 (List.length (blocks self))) ;;
    Ok (alld ++ tl).

(** ** Parsing: [int(s)] and [datetime.strptime(s, "%m/%d/%Y")] *)

Definition code (c : ascii) : Z := Z.of_nat (nat_of_ascii c).

(** Characters [int()] skips around the number: the ASCII whitespace and
    the separators U+001C..U+001F, which Python also counts as space. *)
Definition is_space (c : ascii) : bool :=
  ((9 <=? code c) && (code c <=? 13)) || ((28 <=? code c) && (code c <=? 32)).

Definition is_digit (c : ascii) : bool := (48 <=? code c) && (code c <=? 57).
Definition digit_val (c : ascii) : Z := code c - 48.

Fixpoint drop_spaces (cs : list ascii) : list ascii :=
  match cs with
  | c :: cs' => if is_space c then drop_spaces cs' else cs
  | [] => []
  end.

(** Digits after the first one; a single [_] may separate two digits.
    Returns the value and the unread rest, or [None] on a bad [_]. *)
Fixpoint digits_tail (cs : list ascii) (acc : Z) : option (Z * list ascii) :=
  match cs with
  | [] => Some (acc, [])
  | c :: cs' =>
      if is_digit c then digits_tail cs' (acc * 10 + digit_val c)
      else if Ascii.eqb c "_"%char then
        match cs' with
        | d :: cs'' => if is_digit d then digits_tail cs'' (acc * 10 + digit_val d) else None
        | [] => None
        end
      else Some (acc, cs)
  end.

(** [int(s)] for a base-10 string of ASCII characters; anything else
    raises ValueError (Unicode digits and spaces are not modelled). *)
Definition py_int (s : string) : result Z :=
  let cs := drop_spaces (list_ascii_of_string s) in
  let '(sgn, cs) := match cs with
                    | c :: cs' => if Ascii.eqb c "-"%char then (-1, cs')
                                  else if Ascii.eqb c "+"%char then (1, cs')
                                  else (1, cs)
                    | [] => (1, [])
                    end in
  match cs with
  | c :: cs' =>
      if is_digit c then
        match digits_tail cs' (digit_val c) with
        | Some (v, rest) => if forallb is_space rest then Ok (sgn * v) else Err ValueError
        | None => Err ValueError
        end
      else Err ValueError
  | [] => Err ValueError
  end.

(** The regular expressions [_strptime] builds for [%m], [%d] and [%Y],
    as the list of their matches in the order the regex engine tries them. *)
Definition is_ch (c : ascii) (k : Z) : bool := code c =? k.
Definition in_range (c : ascii) (lo hi : Z) : bool := (lo <=? code c) && (code c <=? hi).

(** [%m]: [1[0-2]|0[1-9]|[1-9]] *)
Definition match_m (cs : list ascii) : list (Z * list ascii) :=
  match cs with
  | c1 :: rest1 =>
      (match rest1 with
       | c2 :: rest2 =>
           (if is_ch c1 49 && in_range c2 48 50 then [(10 + digit_val c2, rest2)] else []) ++
           (if is_ch c1 48 && in_range c2 49 57 then [(digit_val c2, rest2)] else [])
       | [] => []
       end) ++
      (if in_range c1 49 57 then [(digit_val c1, rest1)] else [])
  | [] => []
  end.

(** [%d]: [3[01]|[12]\d|0[1-9]|[1-9]| [1-9]] *)
Definition match_d (cs : list ascii) : list (Z * list ascii) :=
  match cs with
  | c1 :: rest1 =>
      (match rest1 with
       | c2 :: rest2 =>
           (if is_ch c1 51 && in_range c2 48 49 then [(30 + digit_val c2, rest2)] else []) ++
           (if in_range c1 49 50 && is_digit c2 then [(10 * digit_val c1 + digit_val c2, rest2)] else []) ++
           (if is_ch c1 48 && in_range c2 49 57 then [(digit_val c2, rest2)] else [])
       | [] => []
       end) ++
      (if in_range c1 49 57 then [(digit_val c1, rest1)] else []) ++
      (match rest1 with
       | c2 :: rest2 => if is_ch c1 32 && in_range c2 49 57 then [(digit_val c2, rest2)] else []
       | [] => []
       end)
  | [] => []
  end.

(** [%Y]: [\d\d\d\d] *)
Definition match_Y (cs : list ascii) : list (Z * list ascii) :=
  match cs with
  | a :: b :: c :: d :: rest =>
      if is_digit a && is_digit b && is_digit c && is_digit d then
        [(1000 * digit_val a + 100 * digit_val b + 10 * digit_val c + digit_val d, rest)]
      else []
  | _ => []
  end.

Definition match_slash (cs : list ascii) : list (list ascii) :=
  match cs with
  | c :: rest => if is_ch c 47 then [rest] else []
  | [] => []
  end.

(** All matches of [%m/%d/%Y] at the start of the string, first the one
    [re.match] returns. *)
Definition match_mdY (cs : list ascii) : list (Z * Z * Z * list ascii) :=
  flat_map (fun '(m, r1) =>
    flat_map (fun r1' =>
      flat_map (fun '(d, r2) =>
        flat_map (fun r2' =>
          map (fun '(y, r3) => (m, d, y, r3)) (match_Y r2'))
        (match_slash r2))
      (match_d r1'))
    (match_slash r1))
  (match_m cs).

(** [datetime.datetime.strptime(s, "%m/%d/%Y")] on ASCII input (the [\d]
    of the patterns also matches Unicode digits, not modelled): no match,
    unconverted data or an impossible date raise ValueError. *)
Definition strptime_mdY (s : string) : result DateTime :=
  match match_mdY (list_ascii_of_string s) with
  | [] => Err ValueError
  | (m, d, y, rest) :: _ =>
      match rest with
      | _ :: _ => Err ValueError
      | [] =>
          if (1 <=? y) && (1 <=? d) && (d <=? days_in_month y m)
          then Ok (at_midnight (mkDate y m d))
          else Err ValueError
      end
  end.

(** ** The row loop of [main] *)

(** One iteration of [for row in reader]: [Ok None] is a [continue],
    [Ok (Some evs)] the events whose CSV rows are written. *)
Definition process_row (row : list string) : result (option (list Event)) :=
  r0 <- Py.index row 0 ;;
  date <- strptime_mdY r0 ;;
  (* no weekends *)
  if 5 <=? weekday (dt_date date) then Ok None else
  r1 <- Py.index row 1 ;;
  let is_open := String.eqb r1 "TRUE" in
  r2 <- Py.index row 2 ;;
  let is_special := String.eqb r2 "TRUE" in
  (* try: number = int(row[3]) except IndexError: continue *)
  match (r3 <- Py.index row 3 ;; py_int r3) with
  | Err IndexError => Ok None
  | Err e => Err e
  | Ok number =>
      let is_open_val := is_open && negb is_special in
      day <- RotationDay_init date number is_open_val (skipn 4 row) ;;
      evs <- create_blocks day ;;
      Ok (Some evs)
  end.

(** The loop, threading the rows written so far; an uncaught exception
    stops it with the rows already written left in the output. *)
Fixpoint main_rows (rows : list (list string)) (out : list (list string))
    : list (list string) * option exn :=
  match rows with
  | [] => (out, None)
  | row :: rest =>
      match process_row row with
      | Ok None => main_rows rest out
      | Ok (Some evs) => main_rows rest (out ++ map to_csv evs)
      | Err e => (out, Some e)
      end
  end.

(** [main] on the rows of the input file: [next(reader)] skips the header
    (StopIteration on an empty file), then [writer.writeheader()]. *)
Definition main (input : list (list string)) : list (list string) * option exn :=
  match input with
  | [] => ([], Some StopIteration)
  | _header :: rows => main_rows rows [field_names]
  end.

(** ** The slicing formula of the older history of [_get_block_rotation] *)

(** [blocks[day::-1] + blocks[-1:day+1:-1]] *)
Definition rotation_formula1 (blocks : list string) (day : Z) : result (list string) :=
  a <- Py.slice blocks (Some day) None (-1) ;;
  b <- Py.slice blocks (Some (-1)) (Some (day + 1)) (-1) ;;
  Ok (a ++ b).

(** [blocks[(N-1-day)%N+1:] + blocks[:(N-1-day)%N]], [N = len(blocks)] *)
Definition rotation_formula2 (blocks : list string) (day : Z) : result (list string) :=
  let N := Z.of_nat (List.length blocks) in
  let i := (N - 1 - day) mod N in
  a <- Py.slice blocks (Some (i + 1)) None 1 ;;
  b <- Py.slice blocks None (Some i) 1 ;;
  Ok (a ++ b).

(** The blocks in alphabetical order, [A Block] .. [G Block]. *)
Definition BLOCKS_ALPHA : list string :=
  ["A Block"; "B Block"; "C Block"; "D Block"; "E Block"; "F Block"; "G Block"].

(** ** Reading the schedule *)

(** Seconds since midnight. *)
Definition secs (t : Time) : Z := hour t * 3600 + minute t * 60 + second t.

(** Each event ends after it starts and no later than the next one starts. *)
Fixpoint well_ordered (es : list Event) : bool :=
  match es with
  | [] => true
  | e :: rest =>
      (secs (dt_time (start e)) <? secs (dt_time (end_ e))) &&
      match rest with
      | [] => true
      | e' :: _ => secs (dt_time (end_ e)) <=? secs (dt_time (start e'))
      end && well_ordered rest
  end.

(** The timed event [create_blocks] makes for a period name and its
    [(start, end)] table entry. *)
Definition timed_event (date : DateTime) (p : string * (Time * Time)) : Event :=
  mkEvent (fst p) (combine date (fst (snd p))) (combine date (snd (snd p))) false.

(** ** Reading the claims *)

(** The rotation as the claim words it: drop index [(d - 1) mod 7] and list
    the six entries that follow it, wrapping around. *)
Definition rotation_claimed (d : Z) : list string :=
  map (fun k => nth (Z.to_nat ((d - 1 + 1 + Z.of_nat k) mod 7)) BLOCKS "") (seq 0 6).

(** [sub in s] for strings. *)
Fixpoint contains (sub s : string) : bool :=
  String.prefix sub s ||
  match s with
  | EmptyString => false
  | String _ s' => contains sub s'
  end.

(** * Properties *)

(** ** Evaluation of the embedding on sample inputs *)

Example rot1 : get_block_rotation 1 =
  Ok ["A Block"; "B Block"; "C Block"; "D Block"; "E Block"; "F Block"].
Proof. reflexivity. Qed.
Example rot2 : get_block_rotation 2 =
  Ok ["G Block"; "A Block"; "B Block"; "C Block"; "D Block"; "E Block"].
Proof. reflexivity. Qed.
Example weekday_2024_03_04 : weekday (mkDate 2024 3 4) = 0.
Proof. reflexivity. Qed.
Example weekday_2024_03_06 : weekday (mkDate 2024 3 6) = 2.
Proof. reflexivity. Qed.
Example str_int_12 : str_int 12 = "12". Proof. reflexivity. Qed.
Example str_date_ex : str_date (mkDate 2024 3 6) = "2024-03-06". Proof. reflexivity. Qed.
Example str_time_ex : str_time (mkTime 7 5 0) = "07:05:00". Proof. reflexivity. Qed.
Example init_mon_day1 :
  bind (RotationDay_init (at_midnight (mkDate 2024 3 4)) 1 true []) (fun r => Ok (blocks r)) =
  Ok [MORNING_HELP; "A Block"; "B Block"; BREAK; "C Block"; "D Block";
      "MS Lunch | US Advisory"; "US Lunch | MS Advisory"; "E Block"; "F Block"; ELECTIVES].
Proof. reflexivity. Qed.
Example py_int_ok : py_int " 3 " = Ok 3. Proof. reflexivity. Qed.
Example py_int_bad : py_int "x" = Err ValueError. Proof. reflexivity. Qed.
Example strptime_ex : strptime_mdY "03/04/2024" = Ok (at_midnight (mkDate 2024 3 4)).
Proof. reflexivity. Qed.
Example strptime_bad : strptime_mdY "02/30/2024" = Err ValueError.
Proof. reflexivity. Qed.
Example main_ex :
  main [["Date"; "Open"; "Special"; "Day"]; ["03/04/2024"; "FALSE"; "FALSE"; "1"; "PSAT"]] =
  ([field_names; ["PSAT"; "2024-03-04"; "00:00:00"; "2024-03-04"; "00:00:00"; "True"]], None).
Proof. reflexivity. Qed.

(** ** General facts about the embedding *)

(** Split [lo <= x <= hi] into one goal per value of [x]. *)
Ltac enum_range x :=
  match goal with
  | H : ?lo <= x <= ?hi |- _ =>
    first
    [ exfalso; lia
    | let E := fresh in
      destruct (Z.eq_dec x lo) as [E|E];
      [ subst x; clear H
      | let lo' := eval compute in (lo + 1) in
        assert (lo' <= x <= hi) by lia; clear H E; enum_range x ] ]
  end.

Lemma weekday_range (d : Date) : 0 <= weekday d < 7.
Proof. unfold weekday. apply Z.mod_pos_bound. lia. Qed.

(** The resolver never raises: Python slicing with a non-zero step is total. *)
Lemma get_block_rotation_ok (d : Z) : exists l, get_block_rotation d = Ok l.
Proof. eexists. reflexivity. Qed.

(** Past either end of the table the slice bounds are clamped, so every
    day number below -7 or above 7 gives all seven blocks, reversed. *)
Lemma get_block_rotation_far (d : Z) :
  (d <= -8 \/ 8 <= d) -> get_block_rotation d = Ok (rev BLOCKS).
Proof.
  intros Hd. unfold get_block_rotation, Py.slice, Py.adjust_bound. cbn -[Z.add Z.ltb Z.leb].
  destruct Hd as [Hd|Hd].
  - replace (d - 1 <? 0) with true by (symmetry; apply Z.ltb_lt; lia).
    replace (d - 1 + 7 <? 0) with true by (symmetry; apply Z.ltb_lt; lia).
    replace (d - 1 + 1 <? 0) with true by (symmetry; apply Z.ltb_lt; lia).
    replace (d - 1 + 1 + 7 <? 0) with true by (symmetry; apply Z.ltb_lt; lia).
    reflexivity.
  - replace (d - 1 <? 0) with false by (symmetry; apply Z.ltb_ge; lia).
    replace (7 <=? d - 1) with true by (symmetry; apply Z.leb_le; lia).
    replace (d - 1 + 1 <? 0) with false by (symmetry; apply Z.ltb_ge; lia).
    replace (7 <=? d - 1 + 1) with true by (symmetry; apply Z.leb_le; lia).
    reflexivity.
Qed.

(** ** C1: which block is dropped, and the order of the rest *)

(** C1 counterexample: on day 1 the code keeps [A Block] and drops
    [G Block], listing [A..F]; the claimed rotation is [G F E D C B]. *)
Lemma C1_counterexample : get_block_rotation 1 <> Ok (rotation_claimed 1).
Proof. vm_compute. discriminate. Qed.

(** C1 (amended): for day numbers 1..6 the resolver drops [BLOCKS[d]] and
    lists the others walking backwards circularly from index [d - 1]:
    [BLOCKS[d-1], BLOCKS[d-2], .., BLOCKS[0], BLOCKS[6], .., BLOCKS[d+1]]. *)
Theorem C1_rotation_backwards (d : Z) :
  1 <= d <= 6 ->
  get_block_rotation d =
  Ok (map (fun k => nth (Z.to_nat ((d - 1 - Z.of_nat k) mod 7)) BLOCKS "") (seq 0 6)).
Proof. intros H. enum_range d; reflexivity. Qed.

Lemma C1_rotation_backwards_witness :
  1 <= 3 <= 6 /\
  get_block_rotation 3 =
  Ok (map (fun k => nth (Z.to_nat ((3 - 1 - Z.of_nat k) mod 7)) BLOCKS "") (seq 0 6)).
Proof. split; [lia | apply (C1_rotation_backwards 3); lia]. Defined.

(** ** C3: six distinct blocks per day *)

(** For day numbers 1..6 the rotation has the shape the claim describes:
    six distinct blocks of [BLOCKS], all but [BLOCKS[d]]. *)
Lemma rotation_six_distinct (d : Z) :
  1 <= d <= 6 ->
  exists l, get_block_rotation d = Ok l /\ List.length l = 6%nat /\ NoDup l /\
            incl l BLOCKS /\ ~ In (nth (Z.to_nat d) BLOCKS "") l.
Proof.
  intros H. enum_range d; eexists; (split; [reflexivity|]); cbv;
  (split; [reflexivity|]);
  (split; [repeat constructor; cbv; intuition congruence|]);
  (split; [intros x Hx; intuition congruence | intuition congruence]).
Qed.

(** C3 (code bug at day 7): [BLOCKS[6::-1] + BLOCKS[-1:7:-1]] is all seven
    blocks, so day 7 drops none.  The earlier [calendar.py] cut such a
    result back to six ([if len(blocks) == 7: blocks = blocks[:-1]]), and
    with seven blocks an open Monday has twelve periods for the eleven
    entries of [REG_TIMES], so [create_blocks] raises IndexError. *)
Theorem C3_day7_keeps_all_blocks :
  get_block_rotation 7 = Ok (rev BLOCKS) /\ List.length (rev BLOCKS) = 7%nat /\
  bind (get_block_rotation_v1 7) (fun l => Ok (List.length l)) = Ok 6%nat /\
  bind (RotationDay_init (at_midnight (mkDate 2024 3 4)) 7 true []) create_blocks
    = Err IndexError.
Proof. repeat split; reflexivity. Qed.

(** ** C4: periodicity *)

(** C4 counterexample: day 8 is not day 1 again. *)
Lemma C4_counterexample : get_block_rotation 1 <> get_block_rotation (1 + 7).
Proof. vm_compute. discriminate. Qed.

(** C4 (amended): the day number is never reduced mod 7: for 1..6 the
    rotation of [d + 7] differs from that of [d]. *)
Theorem C4_no_wrap_around (d : Z) :
  1 <= d <= 6 -> get_block_rotation d <> get_block_rotation (d + 7).
Proof. intros H. enum_range d; vm_compute; discriminate. Qed.

Lemma C4_no_wrap_around_witness :
  1 <= 3 <= 6 /\ get_block_rotation 3 <> get_block_rotation (3 + 7).
Proof. split; [lia | apply (C4_no_wrap_around 3); lia]. Defined.

(** ** C6: the two slicing formulas *)

Lemma get_block_rotation_formula1 (d : Z) :
  get_block_rotation d = rotation_formula1 BLOCKS (d - 1).
Proof. reflexivity. Qed.

(** C6 counterexample: over [BLOCKS] itself the formulas differ at day 0
    ([A B C D E F] against [A G F E D C]). *)
Lemma C6_counterexample : rotation_formula1 BLOCKS 0 <> rotation_formula2 BLOCKS 0.
Proof. vm_compute. discriminate. Qed.

(** C6 (amended): the first formula over [BLOCKS] agrees with the second
    over the alphabetical order [A..G] for [0 <= day <= 5]. *)
Theorem C6_formulas_agree_on_reversed (day : Z) :
  0 <= day <= 5 -> rotation_formula1 BLOCKS day = rotation_formula2 BLOCKS_ALPHA day.
Proof. intros H. enum_range day; reflexivity. Qed.

Lemma C6_formulas_agree_on_reversed_witness :
  0 <= 4 <= 5 /\ rotation_formula1 BLOCKS 4 = rotation_formula2 BLOCKS_ALPHA 4.
Proof. split; [lia | apply (C6_formulas_agree_on_reversed 4); lia]. Defined.

(** ** C7: non-positive day numbers *)

(** C7 counterexample: day 0 is not rejected; it yields thirteen names. *)
Lemma C7_counterexample :
  get_block_rotation 0 =
  Ok (rev BLOCKS ++ ["B Block"; "C Block"; "D Block"; "E Block"; "F Block"; "G Block"]).
Proof. reflexivity. Qed.

(** C7 (amended): the resolver has no error path; every day number
    [d <= 0] yields a list of block names. *)
Theorem C7_nonpositive_not_rejected (d : Z) :
  d <= 0 -> exists l, get_block_rotation d = Ok l.
Proof. intros _. apply get_block_rotation_ok. Qed.

Lemma C7_nonpositive_not_rejected_witness :
  0 <= 0 /\ exists l, get_block_rotation 0 = Ok l.
Proof. split; [lia | apply (C7_nonpositive_not_rejected 0); lia]. Defined.

(** ** C2, C5: the assembled period sequence *)

Lemma insert_in_range {A} (l : list A) (i : Z) (x : A) :
  0 <= i <= Z.of_nat (List.length l) ->
  Py.insert l i x = firstn (Z.to_nat i) l ++ x :: skipn (Z.to_nat i) l.
Proof.
  intros H. unfold Py.insert.
  destruct (Z.ltb_spec i 0); [lia|]. rewrite Z.min_l by lia. reflexivity.
Qed.

Lemma insert_length {A} (l : list A) (i : Z) (x : A) :
  List.length (Py.insert l i x) = S (List.length l).
Proof.
  unfold Py.insert. rewrite length_app. cbn [List.length].
  rewrite Nat.add_succ_r, <- length_app, firstn_skipn. reflexivity.
Qed.

(** Every rotation has at least four blocks, all taken from [BLOCKS]. *)
Lemma get_block_rotation_four (d : Z) :
  exists b0 b1 b2 b3 rest,
    get_block_rotation d = Ok (b0 :: b1 :: b2 :: b3 :: rest) /\
    incl (b0 :: b1 :: b2 :: b3 :: rest) BLOCKS.
Proof.
  destruct (Z_le_gt_dec d (-8)) as [Hd|Hd]; [|destruct (Z_le_gt_dec 8 d) as [Hd'|Hd']].
  1, 2: rewrite get_block_rotation_far by lia.
  1, 2: do 5 eexists; split; [reflexivity | intros x Hx; cbv in Hx |- *; intuition congruence].
  assert (H : -7 <= d <= 7) by lia. clear Hd Hd'.
  enum_range d; do 5 eexists; (split; [reflexivity|]);
  intros x Hx; cbv in Hx |- *; intuition congruence.
Qed.

(** The period list [__init__] builds from a rotation with four or more
    blocks, on a weekday whose activities are [ms] and [us]. *)
Lemma RotationDay_init_layout (date : DateTime) (d : Z) (o : bool) (evs : list string)
    (b0 b1 b2 b3 : string) (rest : list string) (ms us : string) :
  get_block_rotation d = Ok (b0 :: b1 :: b2 :: b3 :: rest) ->
  Py.index MS_ACTIVITIES (weekday (dt_date date)) = Ok ms ->
  Py.index US_ACTIVITIES (weekday (dt_date date)) = Ok us ->
  RotationDay_init date d o evs =
  Ok (mkRotationDay date d (weekday (dt_date date) =? 2) o
        (if o then Py.append evs (String.append "Day " (str_int d)) else evs)
        (MORNING_HELP :: b0 :: b1 :: BREAK :: b2 :: b3 ::
         String.append "MS Lunch | US " us :: String.append "US Lunch | MS " ms ::
         rest ++ (if negb (weekday (dt_date date) =? 2) then [ELECTIVES] else []))).
Proof.
  intros Hr Hms Hus. unfold RotationDay_init. rewrite Hr. cbn [bind].
  rewrite Hms. cbn [bind]. rewrite Hus. cbn [bind].
  destruct (weekday (dt_date date) =? 2); cbn [negb];
    unfold Py.append; rewrite ?app_nil_r;
    repeat (rewrite insert_in_range;
            [| repeat progress (rewrite ?insert_length, ?length_app;
                                cbn [List.length]); lia]);
    reflexivity.
Qed.

Lemma index_activities (w : Z) :
  0 <= w <= 4 ->
  Py.index MS_ACTIVITIES w = Ok (nth (Z.to_nat w) MS_ACTIVITIES "") /\
  Py.index US_ACTIVITIES w = Ok (nth (Z.to_nat w) US_ACTIVITIES "").
Proof. intros H. enum_range w; split; reflexivity. Qed.

(** C2 counterexample: on Monday 2024-03-04, day 1, position 5 holds the
    academic block [D Block], not a lunch period; the lunches are at 6, 7. *)
Lemma C2_counterexample :
  exists r, RotationDay_init (at_midnight (mkDate 2024 3 4)) 1 true [] = Ok r /\
    nth_error (blocks r) 5 = Some "D Block" /\ In "D Block" BLOCKS /\
    nth_error (blocks r) 6 = Some "MS Lunch | US Advisory" /\
    nth_error (blocks r) 7 = Some "US Lunch | MS Advisory".
Proof. eexists. split; [reflexivity|]. cbv. intuition congruence. Qed.

(** C2 (amended): for day numbers 1..7 on a weekday, open or closed, the
    morning help is at position 0, two academic blocks at 1 and 2, the
    break at 3 (after the first two academic blocks), two academic blocks
    at 4 and 5, the two lunch periods at 6 and 7, then the remaining
    academic blocks and, on days other than Wednesday only, the
    electives / academic help last. *)
Theorem C2_period_positions (date : DateTime) (d : Z) (o : bool) (evs : list string) :
  1 <= d <= 7 -> weekday (dt_date date) <= 4 ->
  exists r b0 b1 b2 b3 rest,
    RotationDay_init date d o evs = Ok r /\
    get_block_rotation d = Ok (b0 :: b1 :: b2 :: b3 :: rest) /\
    incl (b0 :: b1 :: b2 :: b3 :: rest) BLOCKS /\
    blocks r =
      MORNING_HELP :: b0 :: b1 :: BREAK :: b2 :: b3 ::
      String.append "MS Lunch | US " (nth (Z.to_nat (weekday (dt_date date))) US_ACTIVITIES "") ::
      String.append "US Lunch | MS " (nth (Z.to_nat (weekday (dt_date date))) MS_ACTIVITIES "") ::
      rest ++ (if is_wednesday r then [] else [ELECTIVES]).
Proof.
  intros _ Hw.
  pose proof (weekday_range (dt_date date)) as Hr.
  destruct (index_activities (weekday (dt_date date))) as [Hms Hus]; [lia|].
  destruct (get_block_rotation_four d) as (b0 & b1 & b2 & b3 & rest & Hrot & Hincl).
  eexists; exists b0, b1, b2, b3, rest.
  rewrite (RotationDay_init_layout date d o evs b0 b1 b2 b3 rest _ _ Hrot Hms Hus).
  split; [reflexivity|]. split; [exact Hrot|]. split; [exact Hincl|].
  cbn [blocks is_wednesday].
  destruct (weekday (dt_date date) =? 2); reflexivity.
Qed.

Lemma C2_period_positions_witness :
  (1 <= 2 <= 7 /\ weekday (dt_date (at_midnight (mkDate 2024 3 4))) <= 4) /\
  exists r b0 b1 b2 b3 rest,
    RotationDay_init (at_midnight (mkDate 2024 3 4)) 2 false [] = Ok r /\
    get_block_rotation 2 = Ok (b0 :: b1 :: b2 :: b3 :: rest) /\
    incl (b0 :: b1 :: b2 :: b3 :: rest) BLOCKS /\
    blocks r =
      MORNING_HELP :: b0 :: b1 :: BREAK :: b2 :: b3 ::
      String.append "MS Lunch | US "
        (nth (Z.to_nat (weekday (dt_date (at_midnight (mkDate 2024 3 4))))) US_ACTIVITIES "") ::
      String.append "US Lunch | MS "
        (nth (Z.to_nat (weekday (dt_date (at_midnight (mkDate 2024 3 4))))) MS_ACTIVITIES "") ::
      rest ++ (if is_wednesday r then [] else [ELECTIVES]).
Proof.
  split; [split; [lia | vm_compute; discriminate] |].
  apply (C2_period_positions (at_midnight (mkDate 2024 3 4)) 2 false []);
    [lia | vm_compute; discriminate].
Defined.

(** C5 counterexample: on Tuesday 2024-03-05 the MS lunch period is
    ["MS Lunch | US MFW"], which does not mention the MS activity
    ([Tutorial]), and the US lunch period ["US Lunch | MS Tutorial"] does
    not mention the US activity ([MFW]). *)
Lemma C5_counterexample :
  weekday (mkDate 2024 3 5) = 1 /\
  exists r, RotationDay_init (at_midnight (mkDate 2024 3 5)) 1 true [] = Ok r /\
    nth_error (blocks r) 6 = Some "MS Lunch | US MFW" /\
    contains (nth 1 MS_ACTIVITIES "") "MS Lunch | US MFW" = false /\
    nth_error (blocks r) 7 = Some "US Lunch | MS Tutorial" /\
    contains (nth 1 US_ACTIVITIES "") "US Lunch | MS Tutorial" = false.
Proof.
  split; [reflexivity|].
  eexists. split; [reflexivity|]. repeat split; reflexivity.
Qed.

(** C5 (amended): on every weekday the MS lunch period (position 6) is
    named with that weekday's US activity and the US lunch period
    (position 7, after it) with that weekday's MS activity: while one
    school eats, the other has its common time. *)
Theorem C5_lunch_names (date : DateTime) (d : Z) (o : bool) (evs : list string) :
  weekday (dt_date date) <= 4 ->
  exists r, RotationDay_init date d o evs = Ok r /\
    nth_error (blocks r) 6 =
      Some (String.append "MS Lunch | US "
              (nth (Z.to_nat (weekday (dt_date date))) US_ACTIVITIES "")) /\
    nth_error (blocks r) 7 =
      Some (String.append "US Lunch | MS "
              (nth (Z.to_nat (weekday (dt_date date))) MS_ACTIVITIES "")).
Proof.
  intros Hw.
  pose proof (weekday_range (dt_date date)) as Hr.
  destruct (index_activities (weekday (dt_date date))) as [Hms Hus]; [lia|].
  destruct (get_block_rotation_four d) as (b0 & b1 & b2 & b3 & rest & Hrot & _).
  eexists.
  rewrite (RotationDay_init_layout date d o evs b0 b1 b2 b3 rest _ _ Hrot Hms Hus).
  split; [reflexivity|]. split; reflexivity.
Qed.

Lemma C5_lunch_names_witness :
  weekday (dt_date (at_midnight (mkDate 2024 3 5))) <= 4 /\
  exists r, RotationDay_init (at_midnight (mkDate 2024 3 5)) 4 true [] = Ok r /\
    nth_error (blocks r) 6 =
      Some (String.append "MS Lunch | US "
              (nth (Z.to_nat (weekday (dt_date (at_midnight (mkDate 2024 3 5))))) US_ACTIVITIES "")) /\
    nth_error (blocks r) 7 =
      Some (String.append "US Lunch | MS "
              (nth (Z.to_nat (weekday (dt_date (at_midnight (mkDate 2024 3 5))))) MS_ACTIVITIES "")).
Proof.
  split; [vm_compute; discriminate|].
  apply (C5_lunch_names (at_midnight (mkDate 2024 3 5)) 4 true []).
  vm_compute; discriminate.
Defined.

(** ** C9: closed days *)

(** C9: a closed day on a weekday yields exactly one all-day event per
    non-empty title, in order, and nothing else, whatever its day number. *)
Theorem C9_closed_day_all_day_only (date : DateTime) (d : Z) (evs : list string) :
  weekday (dt_date date) <= 4 ->
  exists r, RotationDay_init date d false evs = Ok r /\
    create_blocks r = Ok (map (fun t => mkEvent t date date true) (filter truthy evs)).
Proof.
  intros Hw.
  pose proof (weekday_range (dt_date date)) as Hr.
  destruct (index_activities (weekday (dt_date date))) as [Hms Hus]; [lia|].
  destruct (get_block_rotation_four d) as (b0 & b1 & b2 & b3 & rest & Hrot & _).
  eexists.
  rewrite (RotationDay_init_layout date d false evs b0 b1 b2 b3 rest _ _ Hrot Hms Hus).
  split; reflexivity.
Qed.

Lemma C9_closed_day_all_day_only_witness :
  weekday (dt_date (at_midnight (mkDate 2024 3 6))) <= 4 /\
  exists r, RotationDay_init (at_midnight (mkDate 2024 3 6)) 3 false ["PSAT"; ""] = Ok r /\
    create_blocks r =
      Ok (map (fun t => mkEvent t (at_midnight (mkDate 2024 3 6)) (at_midnight (mkDate 2024 3 6)) true)
              (filter truthy ["PSAT"; ""])).
Proof.
  split; [vm_compute; discriminate|].
  apply (C9_closed_day_all_day_only (at_midnight (mkDate 2024 3 6)) 3 ["PSAT"; ""]).
  vm_compute; discriminate.
Defined.

(** ** C10: weekend dates *)

(** C10: [RotationDay.__init__] succeeds exactly on Monday..Friday; on a
    Saturday or Sunday [MS_ACTIVITIES[weekday]] raises IndexError. *)
Theorem C10_weekend_index_error (date : DateTime) (d : Z) (o : bool) (evs : list string) :
  (weekday (dt_date date) <= 4 -> exists r, RotationDay_init date d o evs = Ok r) /\
  (5 <= weekday (dt_date date) -> RotationDay_init date d o evs = Err IndexError).
Proof.
  pose proof (weekday_range (dt_date date)) as Hr.
  split; intros Hw.
  - destruct (index_activities (weekday (dt_date date))) as [Hms Hus]; [lia|].
    destruct (get_block_rotation_four d) as (b0 & b1 & b2 & b3 & rest & Hrot & _).
    eexists.
    exact (RotationDay_init_layout date d o evs b0 b1 b2 b3 rest _ _ Hrot Hms Hus).
  - destruct (get_block_rotation_ok d) as [l Hl].
    unfold RotationDay_init. rewrite Hl. cbn [bind].
    remember (weekday (dt_date date)) as w eqn:Ew. clear Ew.
    assert (H : 5 <= w <= 6) by lia. clear Hr Hw.
    enum_range w; reflexivity.
Qed.

Lemma C10_weekend_index_error_witness :
  weekday (dt_date (at_midnight (mkDate 2024 3 9))) = 5 /\
  RotationDay_init (at_midnight (mkDate 2024 3 9)) 2 true [] = Err IndexError.
Proof.
  split; [reflexivity|].
  apply (C10_weekend_index_error (at_midnight (mkDate 2024 3 9)) 2 true []).
  vm_compute; discriminate.
Defined.

(** ** C8: a non-integer day number in the input *)

(** C8 (code bug): [int("x")] raises ValueError, which [except IndexError]
    does not catch, so [main] stops at that row: only the header has been
    written and the valid row after it is never processed.  The earlier
    [calendar.py] loop ([except: continue]) skipped such a row. *)
Theorem C8_bad_day_number_aborts :
  main [["Date"; "Open"; "Special"; "Day"];
        ["03/04/2024"; "TRUE"; "FALSE"; "x"];
        ["03/05/2024"; "TRUE"; "FALSE"; "2"]] = ([field_names], Some ValueError) /\
  fst (main [["Date"; "Open"; "Special"; "Day"];
             ["03/05/2024"; "TRUE"; "FALSE"; "2"]]) <> [field_names].
Proof. split; [reflexivity | vm_compute; discriminate]. Qed.

(** * Further properties of the embedded code *)

(** ** The events of an open day *)

(** A rotation known to be [Ok l] for a concrete day is computed out. *)
Ltac concrete_rotation Hrot :=
  cbv in Hrot; injection Hrot; intros; subst.

(** For day numbers 1..6 on a weekday, an open day has one period per
    entry of its time table, and [create_blocks] lists the non-empty
    titles, then ["Day d"], then one timed event per period with the
    table's times, in table order. *)
Lemma open_day_schedule (date : DateTime) (d : Z) (evs : list string) :
  1 <= d <= 6 -> weekday (dt_date date) <= 4 ->
  exists r, RotationDay_init date d true evs = Ok r /\
    List.length (blocks r) =
      List.length (if weekday (dt_date date) =? 2 then WED_TIMES else REG_TIMES) /\
    create_blocks r =
      Ok (map (fun t => mkEvent t date date true)
              (filter truthy (evs ++ [String.append "Day " (str_int d)])) ++
          map (timed_event date)
              (List.combine (blocks r)
                 (if weekday (dt_date date) =? 2 then WED_TIMES else REG_TIMES))) /\
    well_ordered (map (timed_event date)
              (List.combine (blocks r)
                 (if weekday (dt_date date) =? 2 then WED_TIMES else REG_TIMES))) = true.
Proof.
  intros Hd Hw.
  pose proof (weekday_range (dt_date date)) as Hr.
  destruct (index_activities (weekday (dt_date date))) as [Hms Hus]; [lia|].
  destruct (get_block_rotation_four d) as (b0 & b1 & b2 & b3 & rest & Hrot & _).
  eexists.
  rewrite (RotationDay_init_layout date d true evs b0 b1 b2 b3 rest _ _ Hrot Hms Hus).
  split; [reflexivity|]. cbn [blocks].
  remember (weekday (dt_date date)) as w eqn:Ew. clear Ew Hms Hus.
  assert (Hw' : 0 <= w <= 4) by lia. clear Hr Hw.
  enum_range d; concrete_rotation Hrot; enum_range w;
    (split; [reflexivity | split; reflexivity]).
Qed.

(** X1: on an open weekday with day number 1..6, [create_blocks] emits
    the non-empty titles and ["Day d"] as all-day events, then exactly one
    timed event per entry of the day's time table ([WED_TIMES] on
    Wednesday, [REG_TIMES] otherwise), pairing the i-th period with the
    i-th entry. *)
Theorem X1_open_day_events (date : DateTime) (d : Z) (evs : list string) :
  1 <= d <= 6 -> weekday (dt_date date) <= 4 ->
  exists r, RotationDay_init date d true evs = Ok r /\
    List.length (blocks r) =
      List.length (if weekday (dt_date date) =? 2 then WED_TIMES else REG_TIMES) /\
    create_blocks r =
      Ok (map (fun t => mkEvent t date date true)
              (filter truthy (evs ++ [String.append "Day " (str_int d)])) ++
          map (timed_event date)
              (List.combine (blocks r)
                 (if weekday (dt_date date) =? 2 then WED_TIMES else REG_TIMES))).
Proof.
  intros Hd Hw. destruct (open_day_schedule date d evs Hd Hw) as (r & H1 & H2 & H3 & _).
  exists r. auto.
Qed.

Lemma X1_open_day_events_witness :
  (1 <= 5 <= 6 /\ weekday (dt_date (at_midnight (mkDate 2024 3 6))) <= 4) /\
  exists r, RotationDay_init (at_midnight (mkDate 2024 3 6)) 5 true ["Community Day"] = Ok r /\
    List.length (blocks r) =
      List.length (if weekday (dt_date (at_midnight (mkDate 2024 3 6))) =? 2
                   then WED_TIMES else REG_TIMES) /\
    create_blocks r =
      Ok (map (fun t => mkEvent t (at_midnight (mkDate 2024 3 6)) (at_midnight (mkDate 2024 3 6)) true)
              (filter truthy (["Community Day"] ++ [String.append "Day " (str_int 5)])) ++
          map (timed_event (at_midnight (mkDate 2024 3 6)))
              (List.combine (blocks r)
                 (if weekday (dt_date (at_midnight (mkDate 2024 3 6))) =? 2
                  then WED_TIMES else REG_TIMES))).
Proof.
  split; [split; [lia | vm_compute; discriminate] |].
  apply (X1_open_day_events (at_midnight (mkDate 2024 3 6)) 5 ["Community Day"]);
    [lia | vm_compute; discriminate].
Defined.

Lemma filter_all_day {A} (f : A -> Event) (l : list A) :
  (forall x, all_day (f x) = true) -> filter (fun e => negb (all_day e)) (map f l) = [].
Proof. intros H. induction l as [|x l IH]; cbn; [reflexivity|]. rewrite H. exact IH. Qed.

Lemma filter_timed {A} (f : A -> Event) (l : list A) :
  (forall x, all_day (f x) = false) -> filter (fun e => negb (all_day e)) (map f l) = map f l.
Proof. intros H. induction l as [|x l IH]; cbn; [reflexivity|]. rewrite H, IH. reflexivity. Qed.

(** X2: on an open weekday with day number 1..6 every event falls on the
    row's date, and the timed events are in chronological order: each
    ends after it starts and no later than the next one starts. *)
Theorem X2_open_day_chronological (date : DateTime) (d : Z) (evs : list string) :
  1 <= d <= 6 -> weekday (dt_date date) <= 4 ->
  exists r evts, RotationDay_init date d true evs = Ok r /\ create_blocks r = Ok evts /\
    well_ordered (filter (fun e => negb (all_day e)) evts) = true /\
    Forall (fun e => dt_date (start e) = dt_date date /\ dt_date (end_ e) = dt_date date) evts.
Proof.
  intros Hd Hw. destruct (open_day_schedule date d evs Hd Hw) as (r & H1 & _ & H3 & H4).
  exists r. eexists. split; [exact H1|]. split; [exact H3|].
  rewrite filter_app, filter_all_day, filter_timed by reflexivity.
  split; [exact H4|].
  apply Forall_app. split; apply Forall_forall; intros e He; apply in_map_iff in He;
    destruct He as (x & <- & _); split; reflexivity.
Qed.

Lemma X2_open_day_chronological_witness :
  (1 <= 1 <= 6 /\ weekday (dt_date (at_midnight (mkDate 2024 3 4))) <= 4) /\
  exists r evts, RotationDay_init (at_midnight (mkDate 2024 3 4)) 1 true [] = Ok r /\
    create_blocks r = Ok evts /\
    well_ordered (filter (fun e => negb (all_day e)) evts) = true /\
    Forall (fun e => dt_date (start e) = dt_date (at_midnight (mkDate 2024 3 4)) /\
                     dt_date (end_ e) = dt_date (at_midnight (mkDate 2024 3 4))) evts.
Proof.
  split; [split; [lia | vm_compute; discriminate] |].
  apply (X2_open_day_chronological (at_midnight (mkDate 2024 3 4)) 1 []);
    [lia | vm_compute; discriminate].
Defined.

(** ** Which day numbers an open day survives *)

(** X3: on an open weekday, [create_blocks] succeeds exactly for day
    numbers -7..-1 and 1..6; for every other day number (0, 7, and all
    beyond -8 or 8) the period list outgrows the time table and
    [get_event_times] raises IndexError. *)
Theorem X3_open_day_index_error (date : DateTime) (d : Z) (evs : list string) :
  weekday (dt_date date) <= 4 ->
  ((exists evts, bind (RotationDay_init date d true evs) create_blocks = Ok evts) <->
   (-7 <= d <= -1 \/ 1 <= d <= 6)) /\
  (~ (-7 <= d <= -1 \/ 1 <= d <= 6) ->
   bind (RotationDay_init date d true evs) create_blocks = Err IndexError).
Proof.
  intros Hw.
  pose proof (weekday_range (dt_date date)) as Hr.
  destruct (index_activities (weekday (dt_date date))) as [Hms Hus]; [lia|].
  destruct (get_block_rotation_four d) as (b0 & b1 & b2 & b3 & rest & Hrot & _).
  rewrite (RotationDay_init_layout date d true evs b0 b1 b2 b3 rest _ _ Hrot Hms Hus).
  cbn [bind].
  remember (weekday (dt_date date)) as w eqn:Ew. clear Ew Hms Hus.
  assert (Hw' : 0 <= w <= 4) by lia. clear Hr Hw.
  assert (Hfar : d <= -8 \/ 8 <= d \/ -7 <= d <= 7) by lia.
  destruct Hfar as [Hfar|[Hfar|Hd]].
  1, 2: rewrite get_block_rotation_far in Hrot by lia; concrete_rotation Hrot;
        enum_range w;
        (split; [split; [intros [? E]; discriminate | lia] | intros _; reflexivity]).
  enum_range d; concrete_rotation Hrot; enum_range w;
  first
  [ split; [split; [intros _; lia | intros _; eexists; reflexivity] | intros Hn; exfalso; lia]
  | split; [split; [intros [? E]; discriminate | lia] | intros _; reflexivity] ].
Qed.

Lemma X3_open_day_index_error_witness :
  weekday (dt_date (at_midnight (mkDate 2024 3 4))) <= 4 /\
  (((exists evts, bind (RotationDay_init (at_midnight (mkDate 2024 3 4)) 7 true []) create_blocks
                  = Ok evts) <->
    (-7 <= 7 <= -1 \/ 1 <= 7 <= 6)) /\
   (~ (-7 <= 7 <= -1 \/ 1 <= 7 <= 6) ->
    bind (RotationDay_init (at_midnight (mkDate 2024 3 4)) 7 true []) create_blocks
      = Err IndexError)).
Proof.
  split; [vm_compute; discriminate|].
  apply (X3_open_day_index_error (at_midnight (mkDate 2024 3 4)) 7 []).
  vm_compute; discriminate.
Defined.

(** ** The rotation for every integer day number *)

(** X4: for every integer day number the resolver returns names from
    [BLOCKS] only: thirteen for day 0 (with repeats), six distinct ones
    for -7..-1 and 1..6, and all seven, once each, for every other day. *)
Theorem X4_rotation_length (d : Z) :
  exists l, get_block_rotation d = Ok l /\ incl l BLOCKS /\
    List.length l = (if d =? 0 then 13%nat else if (-7 <=? d) && (d <=? 6) then 6%nat else 7%nat) /\
    (d <> 0 -> NoDup l).
Proof.
  assert (Hfar : d <= -8 \/ 8 <= d \/ -7 <= d <= 7) by lia.
  destruct Hfar as [Hfar|[Hfar|Hd]].
  1, 2: exists (rev BLOCKS); rewrite get_block_rotation_far by lia;
        split; [reflexivity|];
        replace (d =? 0) with false by (symmetry; apply Z.eqb_neq; lia);
        replace ((-7 <=? d) && (d <=? 6)) with false
          by (symmetry; apply andb_false_iff;
              first [left; apply Z.leb_gt; lia | right; apply Z.leb_gt; lia]);
        split; [intros x Hx; cbv in Hx |- *; intuition congruence|];
        split; [reflexivity|];
        intros _; cbv; repeat constructor; cbv; intuition congruence.
  enum_range d; eexists; (split; [reflexivity|]);
    (split; [intros x Hx; cbv in Hx |- *; intuition congruence|]);
    (split; [reflexivity|]);
    intros Hn; try (exfalso; lia); cbv; repeat constructor; cbv; intuition congruence.
Qed.

(** ** The row loop of [main] *)

Lemma process_row_prefix (s0 : string) (cols : list string) (dt : DateTime) :
  strptime_mdY s0 = Ok dt ->
  process_row (s0 :: cols) =
  if 5 <=? weekday (dt_date dt) then Ok None else
  r1 <- Py.index (s0 :: cols) 1 ;;
  r2 <- Py.index (s0 :: cols) 2 ;;
  match (r3 <- Py.index (s0 :: cols) 3 ;; py_int r3) with
  | Err IndexError => Ok None
  | Err e => Err e
  | Ok number =>
      day <- RotationDay_init dt number
               (String.eqb r1 "TRUE" && negb (String.eqb r2 "TRUE")) (skipn 4 (s0 :: cols)) ;;
      evs <- create_blocks day ;;
      Ok (Some evs)
  end.
Proof.
  intros H. unfold process_row.
  change (Py.index (s0 :: cols) 0) with (Ok (A := string) s0). cbn [bind].
  rewrite H. reflexivity.
Qed.



(** X8: on a weekday row, a row of exactly three fields (no rotation
    number) is skipped by [except IndexError], while a row of one or two
    fields raises IndexError at [row[1]] or [row[2]], outside the [try],
    and stops the loop. *)
Theorem X8_short_rows (s0 s1 s2 : string) (dt : DateTime)
    (rest : list (list string)) (out : list (list string)) :
  strptime_mdY s0 = Ok dt -> weekday (dt_date dt) <= 4 ->
  main_rows ([s0; s1; s2] :: rest) out = main_rows rest out /\
  main_rows ([s0; s1] :: rest) out = (out, Some IndexError) /\
  main_rows ([s0] :: rest) out = (out, Some IndexError).
Proof.
  intros Hs Hw. cbn [main_rows].
  rewrite (process_row_prefix s0 [s1; s2] dt Hs), (process_row_prefix s0 [s1] dt Hs),
          (process_row_prefix s0 [] dt Hs).
  replace (5 <=? weekday (dt_date dt)) with false by (symmetry; apply Z.leb_gt; lia).
  repeat split; reflexivity.
Qed.

Lemma X8_short_rows_witness :
  (strptime_mdY "3/4/2024" = Ok (at_midnight (mkDate 2024 3 4)) /\
   weekday (dt_date (at_midnight (mkDate 2024 3 4))) <= 4) /\
  (main_rows [["3/4/2024"; "TRUE"; "FALSE"]] [] = main_rows [] [] /\
   main_rows [["3/4/2024"; "TRUE"]] [] = ([], Some IndexError) /\
   main_rows [["3/4/2024"]] [] = ([], Some IndexError)).
Proof.
  split; [split; [reflexivity | vm_compute; discriminate] |].
  apply (X8_short_rows "3/4/2024" "TRUE" "FALSE" (at_midnight (mkDate 2024 3 4)));
    [reflexivity | vm_compute; discriminate].
Defined.



(** ** The rotation of [calendar.py] *)

(** X11: the earlier [calendar.py] rotation returns six distinct blocks
    for every day number 1..7, dropping [BLOCKS[d mod 7]] (day 7 drops
    [A Block]), and agrees with [_get_block_rotation] on days 1..6. *)
Theorem X11_v1_rotation_six (d : Z) :
  1 <= d <= 7 ->
  exists l, get_block_rotation_v1 d = Ok l /\ List.length l = 6%nat /\ NoDup l /\
    incl l BLOCKS /\ ~ In (nth (Z.to_nat (d mod 7)) BLOCKS "") l /\
    (d <= 6 -> get_block_rotation_v1 d = get_block_rotation d).
Proof.
  intros H. enum_range d; eexists; (split; [reflexivity|]); cbv;
  (split; [reflexivity|]).
  all: split; [repeat constructor; cbv; intuition congruence|].
  all: split; [intros x Hx; intuition congruence|].
  all: split; [intuition congruence|].
  all: intros Hd; first [reflexivity | exfalso; apply Hd; reflexivity].
Qed.

Lemma X11_v1_rotation_six_witness :
  1 <= 7 <= 7 /\
  exists l, get_block_rotation_v1 7 = Ok l /\ List.length l = 6%nat /\ NoDup l /\
    incl l BLOCKS /\ ~ In (nth (Z.to_nat (7 mod 7)) BLOCKS "") l /\
    (7 <= 6 -> get_block_rotation_v1 7 = get_block_rotation 7).
Proof. split; [lia | apply (X11_v1_rotation_six 7); lia]. Defined.
